(** * Electrician Troubleshooter API: the rule lookup engine, the issue
    report endpoints and the diagnostic endpoint of [main.py], embedded and
    verified.

    A Python [str] is modelled as a [string] whose characters are the code
    points below 256 (the Latin-1 range); on that range [isspace] and
    [lower_char] below are exactly [str.isspace] and [str.lower].  The rule
    table is a [gmap] keyed by pairs of strings, as the source's [dict] keyed
    by 2-tuples.  The texts of the diagnostic endpoint are the one
    exception: they hold symbols outside Latin-1 and are kept as UTF-8
    bytes, with slices counted in characters. *)

From Stdlib Require Import ZArith NArith Ascii String List.
From stdpp Require Import base option gmap strings list fin_maps pretty.

Local Open Scope string_scope.

(** ** Python string methods used by the source *)

Module PyStr.

(** [str.isspace] on one code point: TAB..CR, FS..US, SPACE, NEL, NBSP. *)
Definition isspace (c : ascii) : bool :=
  let n := N_of_ascii c in
  (((9 <=? n) && (n <=? 13)) || ((28 <=? n) && (n <=? 32))
   || (n =? 133) || (n =? 160))%N.

(** [str.lower] on one code point: A..Z and the Latin-1 capitals
    (U+00C0..U+00DE without the multiplication sign U+00D7) move up by 32. *)
Definition lower_char (c : ascii) : ascii :=
  let n := N_of_ascii c in
  if (((65 <=? n) && (n <=? 90))
      || ((192 <=? n) && (n <=? 222) && negb (n =? 215)))%N
  then ascii_of_N (n + 32) else c.

Fixpoint lower (s : string) : string :=
  match s with
  | EmptyString => EmptyString
  | String c s' => String (lower_char c) (lower s')
  end.

(** Leading whitespace removed. *)
Fixpoint lstrip (s : string) : string :=
  match s with
  | EmptyString => EmptyString
  | String c s' => if isspace c then lstrip s' else s
  end.

(** Trailing whitespace removed: a character is kept unless it is
    whitespace and nothing survives after it. *)
Fixpoint rstrip (s : string) : string :=
  match s with
  | EmptyString => EmptyString
  | String c s' =>
      match rstrip s' with
      | EmptyString => if isspace c then EmptyString else String c EmptyString
      | t => String c t
      end
  end.

(** [s.strip()] with no argument. *)
Definition strip (s : string) : string := rstrip (lstrip s).

(** A string made of whitespace only. *)
Fixpoint all_space (s : string) : bool :=
  match s with
  | EmptyString => true
  | String c s' => isspace c && all_space s'
  end.

(** A string is [clean_left] when it does not start with whitespace. *)
Definition clean_left (s : string) : bool :=
  match s with
  | EmptyString => true
  | String c _ => negb (isspace c)
  end.

End PyStr.

(** ** Data model of the rule lookup engine *)

(** A value of the [Any] type a request may carry in [readings]. *)
#[warnings="-register-all"]
Inductive Any : Type :=
| ANone
| ABool (b : bool)
| AInt (z : Z)
| AStr (s : string)
| AList (l : list Any)
| ADict (l : list (string * Any)).

Record TroubleshootRequest := {
  equipment_type : string;
  symptom : string;
  readings : option (gmap string Any)
}.

Record TroubleshootStep := {
  title : string;
  detail : string
}.

Record TroubleshootResponse := {
  probable_causes : list string;
  safety_notes : list string;
  steps : list TroubleshootStep;
  next_actions : list string
}.

(** One value of [RULES]: the dict with keys "causes", "steps" and "next"
    (fields [rule_causes], [rule_steps], [rule_next]).  Such a dict has three
    keys, so it is never falsy. *)
Record RuleEntry := {
  rule_causes : list string;
  rule_steps : list (string * string);
  rule_next : list string
}.

Definition COMMON_SAFETY : list string := [
  "De-energize and lockout/tagout when possible before opening equipment.";
  "Use a properly rated meter and verify it on a known source before and after testing.";
  "Wear appropriate PPE for the available fault current and arc flash boundaries."
].

Definition RULES : gmap (string * string) RuleEntry :=
  list_to_map [
    (("outlet", "no power"),
     {| rule_causes := ["Tripped breaker"; "Tripped GFCI upstream"; "Loose neutral or hot"];
        rule_steps := [
          ("Check panel", "Verify the branch breaker is not tripped; reset if safe.");
          ("Test GFCIs", "Locate and reset any GFCI receptacles upstream in bathrooms, kitchen, garage, exterior.");
          ("Voltage test", "Measure hot-to-neutral and hot-to-ground at the receptacle; expect ~120V.");
          ("Inspect terminations", "If safe, check receptacle backstabs vs. screw terminals; tighten as needed.")
        ];
        rule_next := ["Document findings and load on circuit"; "Consider replacing worn receptacle"] |});
    (("light", "flickering"),
     {| rule_causes := ["Loose lamp"; "Failed lamp/driver"; "Loose neutral"; "Dimmer incompatibility"];
        rule_steps := [
          ("Secure lamp", "Reseat or replace lamp/fixture module.");
          ("Check dimmer", "Confirm fixture is compatible with installed dimmer; try bypassing dimmer.");
          ("Wiggle test", "With power off, tighten wire nuts and terminal screws in fixture box.")
        ];
        rule_next := ["Check voltage stability under load"; "Consider upgrading dimmer/driver"] |});
    (("breaker", "trips immediately"),
     {| rule_causes := ["Hard short to ground/neutral"; "Faulty breaker"];
        rule_steps := [
          ("Isolate loads", "Disconnect downstream loads and retry; if still trips, inspect homerun");
          ("Megger/continuity", "With power off, test insulation resistance hot-to-neutral and hot-to-ground")
        ];
        rule_next := ["Replace breaker after fault cleared if nuisance persists"] |})
  ].

(** The key built on the first line of [troubleshoot]. *)
Definition rule_key (req : TroubleshootRequest) : string * string :=
  (PyStr.lower (PyStr.strip (equipment_type req)),
   PyStr.lower (PyStr.strip (symptom req))).

(** The generic response of the [if not rule:] branch. *)
Definition generic_response : TroubleshootResponse :=
  let steps := [
    {| title := "Verify power";
       detail := "Confirm source voltage and upstream overcurrent device status." |};
    {| title := "Inspect connections";
       detail := "De-energize and check all terminations for tightness and damage." |};
    {| title := "Measure under load";
       detail := "Compare open-circuit vs under-load readings to detect drops." |}
  ] in
  {| probable_causes := ["Insufficient data"];
     safety_notes := COMMON_SAFETY;
     steps := steps;
     next_actions := ["Provide more details or select a closer symptom"] |}.

(** The response built from a matched rule. *)
Definition rule_response (rule : RuleEntry) : TroubleshootResponse :=
  let steps :=
    map (fun td => {| title := fst td; detail := snd td |}) (rule_steps rule) in
  {| probable_causes := rule_causes rule;
     safety_notes := COMMON_SAFETY;
     steps := steps;
     next_actions := rule_next rule |}.

Definition troubleshoot (req : TroubleshootRequest) : TroubleshootResponse :=
  let key := rule_key req in
  match RULES !! key with
  | None => generic_response
  | Some rule => rule_response rule
  end.

(** ** Issue report endpoints: values, documents, exceptions *)

(** A field value of a stored document. *)
Inductive Value : Type :=
| VNone
| VBool (b : bool)
| VInt (z : Z)
| VStr (s : string)
| VObjectId (oid : N).

(** A document is a Python [dict] with string keys. *)
Abbreviation Document := (gmap string Value).

Definition hex_digit (d : N) : ascii :=
  match String.get (N.to_nat d) "0123456789abcdef" with
  | Some c => c
  | None => "0"%char
  end.

Fixpoint hex_of (digits : nat) (n : N) : string :=
  match digits with
  | O => EmptyString
  | S k => hex_of k (n / 16) +:+ String (hex_digit (n mod 16)) EmptyString
  end.

(** Python's [str(v)]; an ObjectId prints as its 24 hexadecimal digits. *)
Definition py_str (v : Value) : string :=
  match v with
  | VNone => "None"
  | VBool true => "True"
  | VBool false => "False"
  | VInt z => pretty z
  | VStr s => s
  | VObjectId oid => hex_of 24 oid
  end.

(** What an endpoint can raise: the [HTTPException] of the source, any
    other [Exception] escaping from the database helpers, or a
    [BaseException] that is not an [Exception] (KeyboardInterrupt,
    SystemExit and the like). *)
Inductive Exn : Type :=
| HTTPException (status_code : Z) (detail : string)
| StoreError (msg : string)
| NonException (name : string).

(** [isinstance(e, Exception)]: what [except Exception] catches. *)
Definition is_exception (e : Exn) : bool :=
  match e with
  | HTTPException _ _ => true
  | StoreError _ => true
  | NonException _ => false
  end.

Inductive Result (A : Type) : Type :=
| Ok (a : A)
| Raise (e : Exn).
Arguments Ok {A} a.
Arguments Raise {A} e.

(** The state the endpoints run in: the module-level handle [db] ([None]
    when the database is not configured), the collections of the document
    store behind it, and the store's next fresh identifier. *)
Record World := {
  db : option string;
  store : gmap string (list Document);
  next_oid : N
}.

(** A computation that reads and writes the world and may raise. *)
Definition M (A : Type) : Type := World -> Result A * World.

#[global] Instance M_ret : MRet M := fun A a w => (Ok a, w).
#[global] Instance M_bind : MBind M := fun A B f m w =>
  match m w with
  | (Ok a, w') => f a w'
  | (Raise e, w') => (Raise e, w')
  end.
Definition raise {A : Type} (e : Exn) : M A := fun w => (Raise e, w).

(** One [{field: {"$regex": pattern, "$options": options}}] condition. *)
Record RegexCond := {
  cond_field : string;
  cond_pattern : string;
  cond_options : string
}.

(** The filter documents the source builds: [{}] or [{"$or": [...]}]. *)
Inductive Query : Type :=
| QAll
| QOr (conds : list RegexCond).

(** The dict [{"id": _id, "message": ...}] returned by [create_issue]. *)
Record IssueCreated := {
  created_id : string;
  created_message : string
}.

(** The dict [{"items": docs}] returned by [list_issues]. *)
Record IssueList := {
  items : list Document
}.

Section Endpoints.

(** The helpers imported from [database]; their code is not part of the
    sources, so the endpoints take them as parameters. *)
Variable create_document : string -> Document -> M string.
Variable get_documents : string -> Query -> Z -> M (list Document).

(** [if db is None: raise HTTPException(status_code=500, ...)] *)
Definition require_db : M unit := fun w =>
  match db w with
  | None => raise (HTTPException 500 "Database not configured") w
  | Some _ => (Ok tt, w)
  end.

Definition create_issue (issue : Document) : M IssueCreated :=
  _ ← require_db;
  _id ← create_document "issuereport" issue;
  mret {| created_id := _id; created_message := "Issue report saved" |}.

(** The filter of [list_issues]; [if q:] is false for [None] and for the
    empty string. *)
Definition issue_filter (q : option string) : Query :=
  match q with
  | None => QAll
  | Some EmptyString => QAll
  | Some q =>
      QOr [
        {| cond_field := "notes"; cond_pattern := q; cond_options := "i" |};
        {| cond_field := "symptom"; cond_pattern := q; cond_options := "i" |};
        {| cond_field := "location"; cond_pattern := q; cond_options := "i" |}
      ]
  end.

(** The body of the loop over [docs]:
    [if "_id" in d: d["id"] = str(d.pop("_id"))]. *)
Definition expose_id (d : Document) : Document :=
  match d !! "_id" with
  | Some v => <["id" := VStr (py_str v)]> (delete "_id" d)
  | None => d
  end.

Definition list_issues (q : option string) (limit : Z) : M IssueList :=
  _ ← require_db;
  docs ← get_documents "issuereport" (issue_filter q) limit;
  mret {| items := expose_id <$> docs |}.

End Endpoints.

(** ** The document store *)

Module Regex.

(** The part of the store's regular expressions that is modelled: a
    sequence of literal characters and dots, searched anywhere in the
    subject, with the option "i" for caseless matching. *)
Inductive Atom : Type :=
| ALit (c : ascii)
| ADot.

(** Characters with a special meaning in a pattern. *)
Definition is_meta (c : ascii) : bool :=
  existsb (Ascii.eqb c) (list_ascii_of_string "\^$.|?*+()[]{}").

(** [None] on a pattern outside the modelled part. *)
Fixpoint compile (p : string) : option (list Atom) :=
  match p with
  | EmptyString => Some []
  | String c p' =>
      match compile p' with
      | None => None
      | Some atoms =>
          if Ascii.eqb c "." then Some (ADot :: atoms)
          else if is_meta c then None
          else Some (ALit c :: atoms)
      end
  end.

(** A dot matches every character but the newline. *)
Definition atom_matches (caseless : bool) (a : Atom) (c : ascii) : bool :=
  match a with
  | ADot => negb (Ascii.eqb c "010")
  | ALit x =>
      if caseless then Ascii.eqb (PyStr.lower_char x) (PyStr.lower_char c)
      else Ascii.eqb x c
  end.

Fixpoint match_here (caseless : bool) (atoms : list Atom) (s : string) : bool :=
  match atoms, s with
  | [], _ => true
  | _ :: _, EmptyString => false
  | a :: atoms', String c s' =>
      atom_matches caseless a c && match_here caseless atoms' s'
  end.

Fixpoint search (caseless : bool) (atoms : list Atom) (s : string) : bool :=
  match_here caseless atoms s ||
  match s with
  | EmptyString => false
  | String _ s' => search caseless atoms s'
  end.

(** Only the options "" and "i" are modelled. *)
Definition caseless_of (options : string) : option bool :=
  if String.eqb options "" then Some false
  else if String.eqb options "i" then Some true
  else None.

End Regex.

(** A condition with its pattern compiled. *)
Record Compiled := {
  comp_field : string;
  comp_caseless : bool;
  comp_atoms : list Regex.Atom
}.

Definition compile_cond (c : RegexCond) : option Compiled :=
  match Regex.caseless_of (cond_options c), Regex.compile (cond_pattern c) with
  | Some cl, Some atoms =>
      Some {| comp_field := cond_field c; comp_caseless := cl; comp_atoms := atoms |}
  | _, _ => None
  end.

(** A regex condition holds of a document whose field is a string that the
    pattern matches somewhere; a missing or non-string field does not match. *)
Definition cond_holds (c : Compiled) (d : Document) : bool :=
  match d !! comp_field c with
  | Some (VStr s) => Regex.search (comp_caseless c) (comp_atoms c) s
  | _ => false
  end.

Section DocumentStore.

(** The store's verdict on a condition whose pattern or options lie outside
    the modelled part: the test it applies to a document, or the error it
    raises for a pattern it rejects. *)
Variable unmodelled : RegexCond -> Result (Document -> bool).

(** The test a condition applies to a document. *)
Definition cond_test (c : RegexCond) : Result (Document -> bool) :=
  match compile_cond c with
  | Some cc => Ok (cond_holds cc)
  | None => unmodelled c
  end.

Fixpoint cond_tests (conds : list RegexCond) : Result (list (Document -> bool)) :=
  match conds with
  | [] => Ok []
  | c :: conds' =>
      match cond_test c with
      | Raise e => Raise e
      | Ok t =>
          match cond_tests conds' with
          | Raise e => Raise e
          | Ok ts => Ok (t :: ts)
          end
      end
  end.

(** The documents a filter selects, or the error of a rejected pattern. *)
Definition select (flt : Query) (docs : list Document) : Result (list Document) :=
  match flt with
  | QAll => Ok docs
  | QOr conds =>
      match cond_tests conds with
      | Raise e => Raise e
      | Ok ts => Ok (List.filter (fun d => existsb (fun t => t d) ts) docs)
      end
  end.

(** Modelled from the spec: [create_document] of [database.py], which is
    not among the sources.  It persists the report as given and returns a
    store-assigned unique identifier as a string. *)
Definition mongo_create_document (collection : string) (data : Document) : M string :=
  fun w =>
    match db w with
    | None => (Raise (StoreError "Database not available"), w)
    | Some _ =>
        let oid := next_oid w in
        let doc := <["_id" := VObjectId oid]> data in
        (Ok (py_str (VObjectId oid)),
         {| db := db w;
            store := <[collection := ((store w !!! collection) ++ [doc])%list]> (store w);
            next_oid := N.succ oid |})
    end.

(** Modelled from the spec: [get_documents] of [database.py], which is not
    among the sources.  It returns the records of the collection that the
    filter selects, in store order, capped at [limit] records. *)
Definition mongo_get_documents (collection : string) (flt : Query) (limit : Z)
    : M (list Document) :=
  fun w =>
    match db w with
    | None => (Raise (StoreError "Database not available"), w)
    | Some _ =>
        match select flt (store w !!! collection) with
        | Raise e => (Raise e, w)
        | Ok docs => (Ok (take (Z.to_nat limit) docs), w)
        end
    end.

End DocumentStore.

(** A sample verdict for the patterns that are not modelled. *)
Definition sample_unmodelled : RegexCond -> Result (Document -> bool) :=
  fun _ => Ok (fun _ => false).

(** ** The list operation as the specification words it *)

Fixpoint prefix_ci (q s : string) : bool :=
  match q, s with
  | EmptyString, _ => true
  | String _ _, EmptyString => false
  | String a q', String b s' =>
      Ascii.eqb (PyStr.lower_char a) (PyStr.lower_char b) && prefix_ci q' s'
  end.

(** [s] contains [q] as a case-insensitive literal substring. *)
Fixpoint contains_ci (q s : string) : bool :=
  prefix_ci q s ||
  match s with
  | EmptyString => false
  | String _ s' => contains_ci q s'
  end.

Definition field_contains_ci (q field : string) (d : Document) : bool :=
  match d !! field with
  | Some (VStr s) => contains_ci q s
  | _ => false
  end.

(** The records the specification selects for a query [q]. *)
Definition spec_matches (q : string) (d : Document) : bool :=
  field_contains_ci q "notes" d || field_contains_ci q "symptom" d
  || field_contains_ci q "location" d.

(** ** Names used by the statements below *)

(** The normalisation [troubleshoot] applies to both fields of a request:
    [.strip().lower()]. *)
Definition normalize (s : string) : string := PyStr.lower (PyStr.strip s).

(** [s'] is [s] with its letters possibly in another case and with
    whitespace possibly added around it. *)
Definition padded_recased (s' s : string) : Prop :=
  exists l t r,
    PyStr.all_space l = true /\ PyStr.all_space r = true
    /\ PyStr.lower t = PyStr.lower s
    /\ s' = String.append l (String.append t r).

(** A step of a response, read back as the (title, detail) pair of the table. *)
Definition step_pair (st : TroubleshootStep) : string * string :=
  (title st, detail st).

(** A pattern made of literal characters only. *)
Fixpoint literal (q : string) : bool :=
  match q with
  | EmptyString => true
  | String c q' => negb (Regex.is_meta c) && literal q'
  end.

Fixpoint literal_atoms (q : string) : list Regex.Atom :=
  match q with
  | EmptyString => []
  | String c q' => Regex.ALit c :: literal_atoms q'
  end.

(** A document carries the identifier the store assigned to it. *)
Definition has_oid (d : Document) : Prop := is_Some (d !! "_id").

(** Every stored document carries its identifier. *)
Definition store_wf (w : World) : Prop :=
  forall coll docs, store w !! coll = Some docs -> Forall has_oid docs.

(** A record as [list_issues] returns it: no "_id", and a string under "id". *)
Definition public_record (r : Document) : Prop :=
  r !! "_id" = None /\ exists s, r !! "id" = Some (VStr s).

(** Sample reports and worlds. *)
Definition kitchen_report : Document :=
  <["notes" := VStr "Flickers at night"]>
    (<["symptom" := VStr "flickering"]> (<["location" := VStr "Kitchen"]> ∅)).

Definition garage_report : Document :=
  <["notes" := VStr "dead since storm"]>
    (<["symptom" := VStr "no power"]> (<["location" := VStr "garage"]> ∅)).

Definition unconfigured_world : World :=
  {| db := None; store := ∅; next_oid := 1 |}.

Definition fresh_world : World :=
  {| db := Some "appdb"; store := ∅; next_oid := 1 |}.

Definition one_report_world : World :=
  snd (mongo_create_document "issuereport" kitchen_report fresh_world).

Definition two_reports_world : World :=
  snd (mongo_create_document "issuereport" garage_report one_report_world).

(** ** The diagnostic endpoint *)

(** The dict [response] of [test_database].  The texts of this endpoint
    carry symbols outside Latin-1, so here a [string] holds the UTF-8 bytes
    of a Python [str]. *)
Record TestResponse := {
  backend : string;
  database : string;
  database_url : option string;
  database_name : option string;
  connection_status : string;
  collections : list string
}.

(** [response[key] = value], for each key the function assigns. *)
Definition set_database (v : string) (r : TestResponse) : TestResponse :=
  {| backend := backend r; database := v; database_url := database_url r;
     database_name := database_name r;
     connection_status := connection_status r; collections := collections r |}.

Definition set_database_url (v : option string) (r : TestResponse) : TestResponse :=
  {| backend := backend r; database := database r; database_url := v;
     database_name := database_name r;
     connection_status := connection_status r; collections := collections r |}.

Definition set_database_name (v : option string) (r : TestResponse) : TestResponse :=
  {| backend := backend r; database := database r; database_url := database_url r;
     database_name := v;
     connection_status := connection_status r; collections := collections r |}.

Definition set_connection_status (v : string) (r : TestResponse) : TestResponse :=
  {| backend := backend r; database := database r; database_url := database_url r;
     database_name := database_name r;
     connection_status := v; collections := collections r |}.

Definition set_collections (v : list string) (r : TestResponse) : TestResponse :=
  {| backend := backend r; database := database r; database_url := database_url r;
     database_name := database_name r;
     connection_status := connection_status r; collections := v |}.

(** A byte that continues a character begun by an earlier byte. *)
Definition is_continuation (c : ascii) : bool :=
  let n := N_of_ascii c in ((128 <=? n) && (n <? 192))%N.

(** The number of characters of a text: the bytes that begin one. *)
Fixpoint code_points (s : string) : nat :=
  match s with
  | EmptyString => 0
  | String c s' =>
      if is_continuation c then code_points s' else S (code_points s')
  end.

(** The slice [s[:n]]: the first [n] characters of a text, each with all
    of its bytes. *)
Fixpoint str_prefix (n : nat) (s : string) : string :=
  match s with
  | EmptyString => EmptyString
  | String c s' =>
      if is_continuation c then String c (str_prefix n s')
      else
        match n with
        | O => EmptyString
        | S k => String c (str_prefix k s')
        end
  end.

(** A computation inside [test_database]: it mutates the dict [response],
    runs in the world, and may raise; what it assigned before raising stays
    assigned. *)
Definition R (A : Type) : Type :=
  TestResponse * World -> Result A * (TestResponse * World).

#[global] Instance R_ret : MRet R := fun A a st => (Ok a, st).
#[global] Instance R_bind : MBind R := fun A B f m st =>
  match m st with
  | (Ok a, st') => f a st'
  | (Raise e, st') => (Raise e, st')
  end.

Definition assign (f : TestResponse -> TestResponse) : R unit :=
  fun st => (Ok tt, (f (fst st), snd st)).

Definition read_db : R (option string) :=
  fun st => (Ok (db (snd st)), st).

(** A call into the database driver, which sees the world only. *)
Definition call {A : Type} (m : M A) : R A :=
  fun st =>
    match m (snd st) with
    | (res, w') => (res, (fst st, w'))
    end.

(** [try: body except Exception as e: handler]; what is not an
    [Exception] passes through. *)
Definition try_except {A : Type} (body : R A) (handler : Exn -> R A) : R A :=
  fun st =>
    match body st with
    | (Ok a, st') => (Ok a, st')
    | (Raise e, st') =>
        if is_exception e then handler e st' else (Raise e, st')
    end.

(** A pure step that may raise. *)
Definition eval {A : Type} (res : Result A) : R A :=
  fun st => (res, st).

(** Python's truth value of what [os.getenv] returns. *)
Definition truthy (v : option string) : bool :=
  match v with
  | Some (String _ _) => true
  | _ => false
  end.

(** [v or d] on what [os.getenv] returns. *)
Definition py_or (v : option string) (d : string) : string :=
  match v with
  | Some (String c s) => String c s
  | _ => d
  end.

Section Diagnostics.

(** The process environment, the driver's [db.list_collection_names()] and
    Python's [str] on an exception, which runs the exception's own
    [__str__] and so may raise. *)
Variable environ : gmap string string.
Variable list_collection_names : M (list string).
Variable exn_str : Exn -> Result string.

Definition getenv (name : string) : option string := environ !! name.

Definition initial_response : TestResponse :=
  {| backend := "✅ Running";
     database := "❌ Not Available";
     database_url := None;
     database_name := None;
     connection_status := "Not Connected";
     collections := [] |}.

Definition test_database_body : R unit :=
  try_except
    (handle ← read_db;
     match handle with
     | Some _ =>
         _ ← assign (set_database "✅ Connected & Working");
         _ ← assign (set_database_url
                       (Some (if truthy (getenv "DATABASE_URL")
                              then "✅ Set" else "❌ Not Set")));
         _ ← assign (set_database_name
                       (Some (py_or (getenv "DATABASE_NAME") "❌ Not Set")));
         _ ← assign (set_connection_status "Connected");
         try_except
           (names ← call list_collection_names;
            assign (set_collections (take 10 names)))
           (fun e =>
              text ← eval (exn_str e);
              assign (set_database
                        (String.append "⚠️  Connected but Error: " (str_prefix 50 text))))
     | None => assign (set_database "⚠️  Available but not initialized")
     end)
    (fun e =>
       text ← eval (exn_str e);
       assign (set_database (String.append "❌ Error: " (str_prefix 50 text)))).

Definition test_database : M TestResponse := fun w =>
  match test_database_body (initial_response, w) with
  | (Ok _, (response, w')) => (Ok response, w')
  | (Raise e, (_, w')) => (Raise e, w')
  end.

End Diagnostics.

(** Sample environment and driver behaviours. *)
Definition sample_environ : gmap string string :=
  <["DATABASE_URL" := "mongodb://localhost:27017"]> (<["DATABASE_NAME" := "appdb"]> ∅).

Definition listing_fails : M (list string) :=
  raise (StoreError "connection refused").

Definition listing_twelve : M (list string) :=
  mret ["c01"; "c02"; "c03"; "c04"; "c05"; "c06"; "c07"; "c08"; "c09"; "c10";
        "c11"; "c12"].

Definition listing_interrupted : M (list string) :=
  raise (NonException "KeyboardInterrupt").

Definition sample_exn_str (e : Exn) : Result string :=
  match e with
  | HTTPException _ d => Ok d
  | StoreError m => Ok m
  | NonException n => Ok n
  end.

(** A [str] that raises on the error of [listing_fails]. *)
Definition failing_exn_str (e : Exn) : Result string :=
  match e with
  | StoreError "connection refused" => Raise (StoreError "cannot print")
  | _ => sample_exn_str e
  end.

(** A document that has a field "id" of its own beside the store's "_id",
    and a helper that returns given documents. *)
Definition report_with_own_id : Document :=
  <["_id" := VObjectId 7]> (<["id" := VInt 42]> kitchen_report).

Definition fixed_listing (docs : list Document)
    : string -> Query -> Z -> M (list Document) :=
  fun _ _ _ => mret docs.

Definition failing_helper {K A : Type} (e : Exn)
    : string -> K -> M A :=
  fun _ _ => raise e.

(** The response once the handle was found present: what the four
    assignments before the listing leave in [response]. *)
Definition configured_response (environ : gmap string string) : TestResponse :=
  {| backend := "✅ Running";
     database := "✅ Connected & Working";
     database_url := Some (if truthy (environ !! "DATABASE_URL")
                           then "✅ Set" else "❌ Not Set");
     database_name := Some (py_or (environ !! "DATABASE_NAME") "❌ Not Set");
     connection_status := "Connected";
     collections := [] |}.

(** An error text of 64 characters, one of them of two bytes. *)
Definition long_error : string :=
  "café 0123456789 0123456789 0123456789 0123456789 0123456789 tail".

(** ** Facts about the string methods *)

Section PyStrFacts.
Import PyStr.

Lemma isspace_lower_char c : isspace (lower_char c) = isspace c.
Proof. by destruct c as [[] [] [] [] [] [] [] []]. Qed.

Lemma lower_char_idemp c : lower_char (lower_char c) = lower_char c.
Proof. by destruct c as [[] [] [] [] [] [] [] []]. Qed.

Lemma lower_idemp s : lower (lower s) = lower s.
Proof.
  induction s as [|c s IH]; simpl; [done|].
  by rewrite lower_char_idemp, IH.
Qed.

Lemma lower_lstrip s : lower (lstrip s) = lstrip (lower s).
Proof.
  induction s as [|c s IH]; simpl; [done|].
  rewrite isspace_lower_char. by destruct (isspace c).
Qed.

Lemma lower_rstrip s : lower (rstrip s) = rstrip (lower s).
Proof.
  induction s as [|c s IH]; simpl; [done|].
  rewrite <- IH, isspace_lower_char.
  destruct (rstrip s) as [|d t]; simpl; [|done].
  by destruct (isspace c).
Qed.

Lemma lower_strip s : lower (strip s) = strip (lower s).
Proof. unfold strip. by rewrite lower_rstrip, lower_lstrip. Qed.

Lemma lstrip_clean_left s : clean_left (lstrip s) = true.
Proof.
  induction s as [|c s IH]; simpl; [done|].
  destruct (isspace c) eqn:E; [done|]. simpl. by rewrite E.
Qed.

Lemma lstrip_fixed s : clean_left s = true -> lstrip s = s.
Proof.
  destruct s as [|c s]; simpl; [done|].
  by destruct (isspace c).
Qed.

Lemma rstrip_clean_left s : clean_left s = true -> clean_left (rstrip s) = true.
Proof.
  destruct s as [|c s]; simpl; [done|].
  intros Hc. destruct (rstrip s); simpl; [|done].
  destruct (isspace c) eqn:Ec; simpl; [done|]. by rewrite Ec.
Qed.

Lemma rstrip_idemp s : rstrip (rstrip s) = rstrip s.
Proof.
  induction s as [|c s IH]; simpl; [done|].
  destruct (rstrip s) as [|d t] eqn:E.
  - destruct (isspace c) eqn:Ec; simpl; [done|]. by rewrite Ec.
  - change (rstrip (String c (String d t)) = String c (String d t)).
    simpl in IH |- *.
    destruct (rstrip t) as [|d' t'].
    + destruct (isspace d); [done|]. by injection IH as ->.
    + by injection IH as ->.
Qed.

Lemma strip_idemp s : strip (strip s) = strip s.
Proof.
  unfold strip.
  rewrite (lstrip_fixed (rstrip (lstrip s))).
  - apply rstrip_idemp.
  - apply rstrip_clean_left, lstrip_clean_left.
Qed.

Lemma lstrip_all_space l s : all_space l = true -> lstrip (String.append l s) = lstrip s.
Proof.
  induction l as [|c l IH]; simpl; [done|].
  intros [Hc Hl]%andb_true_iff. rewrite Hc. by apply IH.
Qed.

Lemma lstrip_all_space_nil r : all_space r = true -> lstrip r = EmptyString.
Proof.
  induction r as [|c r IH]; simpl; [done|].
  intros [Hc Hr]%andb_true_iff. rewrite Hc. by apply IH.
Qed.

Lemma rstrip_all_space r : all_space r = true -> rstrip r = EmptyString.
Proof.
  induction r as [|c r IH]; simpl; [done|].
  intros [Hc Hr]%andb_true_iff. by rewrite (IH Hr), Hc.
Qed.

Lemma rstrip_app_all_space s r :
  all_space r = true -> rstrip (String.append s r) = rstrip s.
Proof.
  intros Hr. induction s as [|c s IH]; simpl.
  - by apply rstrip_all_space.
  - by rewrite IH.
Qed.

Lemma strip_app_all_space s r :
  all_space r = true -> strip (String.append s r) = strip s.
Proof.
  intros Hr. unfold strip. induction s as [|c s IH]; simpl.
  - by rewrite lstrip_all_space_nil.
  - destruct (isspace c); [done|].
    apply (rstrip_app_all_space (String c s) r Hr).
Qed.

Lemma strip_padded l s r :
  all_space l = true -> all_space r = true ->
  strip (String.append l (String.append s r)) = strip s.
Proof.
  intros Hl Hr. unfold strip. rewrite lstrip_all_space by done.
  by apply strip_app_all_space.
Qed.

(** Normalising twice is normalising once. *)
Lemma normalize_idemp s : lower (strip (lower (strip s))) = lower (strip s).
Proof. by rewrite <- lower_strip, strip_idemp, lower_idemp. Qed.

End PyStrFacts.

(** ** The rule lookup engine *)

Lemma rule_key_normalize e s r :
  rule_key {| equipment_type := e; symptom := s; readings := r |}
  = (normalize e, normalize s).
Proof. reflexivity. Qed.

Lemma normalize_normalize s : normalize (normalize s) = normalize s.
Proof. apply normalize_idemp. Qed.

(** Recasing and padding with whitespace do not change the normal form. *)
Lemma padded_recased_normalize s' s : padded_recased s' s -> normalize s' = normalize s.
Proof.
  intros (l & t & r & Hl & Hr & Ht & ->). unfold normalize.
  by rewrite strip_padded, !lower_strip, Ht.
Qed.

Lemma troubleshoot_by_key req req' :
  rule_key req = rule_key req' -> troubleshoot req = troubleshoot req'.
Proof. unfold troubleshoot. by intros ->. Qed.

(** C1: the lookup is insensitive to letter case and to surrounding
    whitespace.  Any two spellings [e'], [s'] and [e], [s] with the same
    normal forms get the response of the normalised pair, whatever the
    readings; in particular [troubleshoot (e, s, r)] equals
    [troubleshoot (normalize e, normalize s, r)], and when the normalised
    pair is a key of [RULES] every spelling gets the content of that one
    entry. *)
Theorem troubleshoot_case_whitespace_insensitive
    (e s e' s' : string) (r r' : option (gmap string Any)) :
  normalize e' = normalize e ->
  normalize s' = normalize s ->
  troubleshoot {| equipment_type := e'; symptom := s'; readings := r' |}
  = troubleshoot {| equipment_type := normalize e; symptom := normalize s;
                    readings := r |}
  /\ forall rule, RULES !! (normalize e, normalize s) = Some rule ->
       troubleshoot {| equipment_type := e'; symptom := s'; readings := r' |}
       = rule_response rule.
Proof.
  intros He Hs. split.
  - apply troubleshoot_by_key.
    by rewrite !rule_key_normalize, !normalize_normalize, He, Hs.
  - intros rule Hrule. unfold troubleshoot.
    by rewrite rule_key_normalize, He, Hs, Hrule.
Qed.

Lemma troubleshoot_case_whitespace_insensitive_witness :
  troubleshoot {| equipment_type := "  OUTLET"; symptom := "No Power ";
                  readings := None |}
  = troubleshoot {| equipment_type := normalize "Outlet";
                    symptom := normalize " no power"; readings := None |}.
Proof.
  apply (troubleshoot_case_whitespace_insensitive
           "Outlet" " no power" "  OUTLET" "No Power " None None);
    reflexivity.
Defined.

(** C2: a pair whose normalised key is not in the rule table gets exactly
    the fixed generic response: the single cause "Insufficient data", the
    three steps "Verify power", "Inspect connections", "Measure under load"
    in that order, and the single next action. *)
Theorem troubleshoot_unmatched_generic (req : TroubleshootRequest) :
  RULES !! rule_key req = None ->
  troubleshoot req = generic_response
  /\ probable_causes (troubleshoot req) = ["Insufficient data"]
  /\ map title (steps (troubleshoot req))
     = ["Verify power"; "Inspect connections"; "Measure under load"]
  /\ next_actions (troubleshoot req)
     = ["Provide more details or select a closer symptom"].
Proof.
  intros Hnone. unfold troubleshoot. rewrite Hnone. by repeat split.
Qed.

Lemma troubleshoot_unmatched_generic_witness :
  troubleshoot {| equipment_type := "fuse"; symptom := "smells burnt";
                  readings := None |} = generic_response.
Proof.
  apply (troubleshoot_unmatched_generic
           {| equipment_type := "fuse"; symptom := "smells burnt";
              readings := None |}).
  vm_compute. reflexivity.
Defined.

(** C3: whatever the request, matched or not, the safety notes of the
    response are the three items of [COMMON_SAFETY]; so any two responses
    carry the same safety notes. *)
Theorem troubleshoot_safety_notes_fixed (req req' : TroubleshootRequest) :
  safety_notes (troubleshoot req) = COMMON_SAFETY
  /\ length (safety_notes (troubleshoot req)) = 3
  /\ safety_notes (troubleshoot req) = safety_notes (troubleshoot req').
Proof.
  assert (Hfix : forall x, safety_notes (troubleshoot x) = COMMON_SAFETY).
  { intros x. unfold troubleshoot. by destruct (RULES !! rule_key x). }
  rewrite !Hfix. by repeat split.
Qed.

(** C4: when the normalised key of a request is bound to a rule, the
    response carries that rule's causes, its steps (titles and details) and
    its next actions, each list in the order of the table. *)
Theorem troubleshoot_matched_verbatim (req : TroubleshootRequest) (rule : RuleEntry) :
  RULES !! rule_key req = Some rule ->
  probable_causes (troubleshoot req) = rule_causes rule
  /\ map step_pair (steps (troubleshoot req)) = rule_steps rule
  /\ next_actions (troubleshoot req) = rule_next rule.
Proof.
  intros Hrule. unfold troubleshoot. rewrite Hrule. simpl.
  repeat split. rewrite map_map.
  induction (rule_steps rule) as [|[t d] l IH]; simpl; [done|].
  by rewrite IH.
Qed.

Lemma troubleshoot_matched_verbatim_witness :
  probable_causes (troubleshoot {| equipment_type := "Light";
                                   symptom := "FLICKERING"; readings := None |})
  = ["Loose lamp"; "Failed lamp/driver"; "Loose neutral"; "Dimmer incompatibility"].
Proof.
  refine (proj1 (troubleshoot_matched_verbatim
    {| equipment_type := "Light"; symptom := "FLICKERING"; readings := None |}
    {| rule_causes := ["Loose lamp"; "Failed lamp/driver"; "Loose neutral";
                       "Dimmer incompatibility"];
       rule_steps := [
         ("Secure lamp", "Reseat or replace lamp/fixture module.");
         ("Check dimmer", "Confirm fixture is compatible with installed dimmer; try bypassing dimmer.");
         ("Wiggle test", "With power off, tighten wire nuts and terminal screws in fixture box.")];
       rule_next := ["Check voltage stability under load";
                     "Consider upgrading dimmer/driver"] |} _)).
  vm_compute. reflexivity.
Defined.

(** C7: the request with equipment type "Outlet" and symptom " No Power "
    gets the three causes of the outlet rule, exactly four steps of which
    the first is titled "Check panel", and the rule's two next actions. *)
Theorem troubleshoot_outlet_no_power :
  let resp := troubleshoot {| equipment_type := "Outlet";
                              symptom := " No Power "; readings := None |} in
  probable_causes resp
  = ["Tripped breaker"; "Tripped GFCI upstream"; "Loose neutral or hot"]
  /\ length (steps resp) = 4
  /\ title <$> head (steps resp) = Some "Check panel"
  /\ next_actions resp
     = ["Document findings and load on circuit";
        "Consider replacing worn receptacle"].
Proof. vm_compute. by repeat split. Qed.

(** C8: the response does not depend on the readings: two requests with
    the same equipment type and symptom get the same response, whatever
    readings each carries, or none. *)
Theorem troubleshoot_ignores_readings
    (e s : string) (r1 r2 : option (gmap string Any)) :
  troubleshoot {| equipment_type := e; symptom := s; readings := r1 |}
  = troubleshoot {| equipment_type := e; symptom := s; readings := r2 |}.
Proof. by apply troubleshoot_by_key. Qed.

(** ** The issue report endpoints *)

Lemma expose_id_no_internal (d : Document) : expose_id d !! "_id" = None.
Proof.
  unfold expose_id. destruct (d !! "_id") as [v|] eqn:E; [|done].
  rewrite lookup_insert_ne by done. apply lookup_delete_eq.
Qed.

Lemma expose_id_public (d : Document) : has_oid d -> public_record (expose_id d).
Proof.
  intros [v Hv]. split; [apply expose_id_no_internal|].
  unfold expose_id. rewrite Hv. exists (py_str v). apply lookup_insert_eq.
Qed.

(** What [list_issues] returns once the guard has passed. *)
Lemma list_issues_run get_documents q limit w res w' :
  list_issues get_documents q limit w = (Ok res, w') ->
  exists docs,
    get_documents "issuereport" (issue_filter q) limit w = (Ok docs, w')
    /\ items res = expose_id <$> docs.
Proof.
  unfold list_issues, mbind, M_bind, require_db, mret, M_ret.
  destruct (db w); [|discriminate].
  destruct (get_documents _ _ _ w) as [[docs|e] w1]; [|discriminate].
  intros [= <- <-]. by exists docs.
Qed.

(** C5: with the database handle absent, creating and listing both raise
    the same explicit error, the [HTTPException] with status 500 and detail
    "Database not configured", whatever the database helpers are; the world
    is left as it was, so no record is created. *)
Theorem unconfigured_store_raises
    (create_document : string -> Document -> M string)
    (get_documents : string -> Query -> Z -> M (list Document))
    (issue : Document) (q : option string) (limit : Z) (w : World) :
  db w = None ->
  create_issue create_document issue w
  = (Raise (HTTPException 500 "Database not configured"), w)
  /\ list_issues get_documents q limit w
     = (Raise (HTTPException 500 "Database not configured"), w).
Proof.
  intros Hdb.
  unfold create_issue, list_issues, mbind, M_bind, require_db.
  by rewrite Hdb.
Qed.

Lemma unconfigured_store_raises_witness :
  create_issue mongo_create_document kitchen_report unconfigured_world
  = (Raise (HTTPException 500 "Database not configured"), unconfigured_world)
  /\ list_issues (mongo_get_documents sample_unmodelled) (Some "kitchen") 50 unconfigured_world
     = (Raise (HTTPException 500 "Database not configured"), unconfigured_world).
Proof.
  apply (unconfigured_store_raises mongo_create_document
           (mongo_get_documents sample_unmodelled)
           kitchen_report (Some "kitchen") 50 unconfigured_world).
  reflexivity.
Defined.

(** *** Identifiers as strings *)








(** *** The modelled store keeps identifiers on its documents *)

Lemma Forall_list_filter {A} (P : A -> Prop) (f : A -> bool) (l : list A) :
  Forall P l -> Forall P (List.filter f l).
Proof.
  induction 1 as [|x l Hx Hl IH]; simpl; [constructor|].
  destruct (f x); [by constructor | done].
Qed.

Lemma select_keeps unmodelled (P : Document -> Prop) flt docs ds :
  select unmodelled flt docs = Ok ds -> Forall P docs -> Forall P ds.
Proof.
  destruct flt as [|conds]; simpl.
  - by intros [= <-].
  - destruct (cond_tests unmodelled conds); [|discriminate].
    intros [= <-]. apply Forall_list_filter.
Qed.

Lemma store_wf_collection w coll : store_wf w -> Forall has_oid (store w !!! coll).
Proof.
  intros Hwf. rewrite lookup_total_alt.
  destruct (store w !! coll) as [docs|] eqn:E; simpl; [by eapply Hwf | constructor].
Qed.

Lemma mongo_get_documents_has_oid unmodelled coll flt limit w docs w1 :
  store_wf w ->
  mongo_get_documents unmodelled coll flt limit w = (Ok docs, w1) ->
  Forall has_oid docs.
Proof.
  intros Hwf. unfold mongo_get_documents.
  destruct (db w); [|discriminate].
  destruct (select unmodelled flt (store w !!! coll)) as [ds|] eqn:E; [|discriminate].
  intros [= <- <-]. apply Forall_take.
  eapply select_keeps; [exact E|]. by apply store_wf_collection.
Qed.

Lemma mongo_create_document_wf coll data w :
  store_wf w -> store_wf (snd (mongo_create_document coll data w)).
Proof.
  intros Hwf. unfold mongo_create_document.
  destruct (db w); simpl; [|done].
  intros coll' docs'. simpl. rewrite lookup_insert.
  case_decide as Hc; [|by apply Hwf].
  intros [= <-]. apply Forall_app. split.
  - by apply store_wf_collection.
  - constructor; [|constructor]. eexists. apply lookup_insert_eq.
Qed.

Lemma fresh_world_wf : store_wf fresh_world.
Proof. intros coll docs. simpl. by rewrite lookup_empty. Qed.

Lemma two_reports_world_wf : store_wf two_reports_world.
Proof. do 2 apply mongo_create_document_wf. apply fresh_world_wf. Qed.

(** On the modelled store the empty filter returns the records of the
    collection up to the limit, none filtered out. *)
Lemma mongo_list_all unmodelled (q : option string) (limit : Z) (w : World) (h : string) :
  issue_filter q = QAll ->
  db w = Some h ->
  list_issues (mongo_get_documents unmodelled) q limit w
  = (Ok {| items := expose_id <$> take (Z.to_nat limit)
                                    (store w !!! "issuereport") |}, w).
Proof.
  intros Hq Hdb.
  unfold list_issues, mbind, M_bind, require_db, mongo_get_documents.
  rewrite Hq, Hdb. simpl. by rewrite Hdb.
Qed.

(** C10: an empty query string builds the same empty filter as an omitted
    query, so the two calls of [list_issues] are the same computation: with
    the database configured, the store is asked for the collection with the
    empty filter and the limit, and what it returns for that is returned,
    with no substring matching against notes, symptom or location. *)
Theorem list_issues_empty_query_as_omitted
    (get_documents : string -> Query -> Z -> M (list Document))
    (limit : Z) (w : World) :
  issue_filter (Some "") = QAll
  /\ list_issues get_documents (Some "") limit w
     = list_issues get_documents None limit w
  /\ (forall h, db w = Some h ->
      list_issues get_documents (Some "") limit w
      = (docs ← get_documents "issuereport" QAll limit;
         mret {| items := expose_id <$> docs |}) w).
Proof.
  split; [done|]. split; [done|].
  intros h Hdb.
  unfold list_issues, mbind, M_bind, require_db.
  by rewrite Hdb.
Qed.

Lemma list_issues_empty_query_as_omitted_witness :
  list_issues (mongo_get_documents sample_unmodelled) (Some "") 50 two_reports_world
  = (docs ← (mongo_get_documents sample_unmodelled) "issuereport" QAll 50;
     mret {| items := expose_id <$> docs |}) two_reports_world.
Proof.
  apply (list_issues_empty_query_as_omitted (mongo_get_documents sample_unmodelled) 50
           two_reports_world) with (h := "appdb").
  reflexivity.
Defined.

(** *** The query is a pattern, not a literal *)

Lemma meta_dot c : Regex.is_meta c = false -> Ascii.eqb c "." = false.
Proof.
  intros Hc. destruct (Ascii.eqb c ".") eqn:E; [|done].
  apply Ascii.eqb_eq in E. by subst c.
Qed.

Lemma compile_literal q : literal q = true -> Regex.compile q = Some (literal_atoms q).
Proof.
  induction q as [|c q IH]; simpl; [done|].
  intros [Hc Hq]%andb_true_iff. apply negb_true_iff in Hc.
  by rewrite (IH Hq), (meta_dot c Hc), Hc.
Qed.

Lemma match_here_literal q s :
  Regex.match_here true (literal_atoms q) s = prefix_ci q s.
Proof.
  revert s. induction q as [|c q IH]; intros [|d s]; simpl; try done.
  by rewrite IH.
Qed.

Lemma search_literal q s :
  Regex.search true (literal_atoms q) s = contains_ci q s.
Proof.
  induction s as [|d s IH]; simpl; rewrite match_here_literal; [done|].
  by rewrite IH.
Qed.

(** For a query without metacharacters the filter of [list_issues] selects
    the records the specification describes. *)
Lemma select_literal_query unmodelled q docs :
  literal q = true -> q <> "" ->
  select unmodelled (issue_filter (Some q)) docs
  = Ok (List.filter (spec_matches q) docs).
Proof.
  intros Hlit Hne. destruct q as [|c q]; [done|].
  unfold issue_filter, select, cond_tests, cond_test, compile_cond.
  simpl cond_pattern. simpl cond_options. simpl cond_field.
  rewrite (compile_literal _ Hlit). simpl.
  f_equal. apply List.filter_ext. intros d.
  unfold spec_matches, field_contains_ci, cond_holds. simpl.
  rewrite orb_false_r, orb_assoc.
  change (Regex.ALit c :: literal_atoms q) with (literal_atoms (String c q)).
  by destruct (d !! "notes") as [[]|], (d !! "symptom") as [[]|],
    (d !! "location") as [[]|]; rewrite ?search_literal.
Qed.

Lemma list_issues_literal_query unmodelled (q : string) (limit : Z) (w : World)
    (h : string) :
  literal q = true -> q <> "" ->
  db w = Some h ->
  list_issues (mongo_get_documents unmodelled) (Some q) limit w
  = (Ok {| items := expose_id <$> take (Z.to_nat limit)
             (List.filter (spec_matches q) (store w !!! "issuereport")) |}, w).
Proof.
  intros Hlit Hne Hdb.
  unfold list_issues, mbind, M_bind, require_db, mongo_get_documents.
  rewrite Hdb. simpl. rewrite Hdb, (select_literal_query unmodelled q _ Hlit Hne).
  done.
Qed.

(** C6, on the code: a query is handed to the store as a regular
    expression.  The query "." selects the stored kitchen report, none of
    whose notes, symptom or location contains a dot. *)
Theorem list_issues_dot_query_overmatches
    (unmodelled : RegexCond -> Result (Document -> bool)) :
  list_issues (mongo_get_documents unmodelled) (Some ".") 50 one_report_world
  = (Ok {| items := [expose_id (<["_id" := VObjectId 1]> kitchen_report)] |},
     one_report_world)
  /\ spec_matches "." (<["_id" := VObjectId 1]> kitchen_report) = false.
Proof. split; vm_compute; reflexivity. Qed.

(** ** More on the rule lookup engine *)

Lemma RULES_keys (k : string * string) :
  is_Some (RULES !! k) <->
  k = ("outlet", "no power") \/ k = ("light", "flickering")
  \/ k = ("breaker", "trips immediately").
Proof.
  unfold RULES. simpl.
  rewrite !lookup_insert_is_Some', lookup_empty.
  split.
  - intros [ <- | [ <- | [ <- | [x Hx] ] ] ]; auto. discriminate Hx.
  - intros [ -> | [ -> | -> ] ]; auto.
Qed.

Section StripShape.
Import PyStr.

Lemma lstrip_decomp s :
  exists l, all_space l = true /\ s = String.append l (lstrip s).
Proof.
  induction s as [|c s (l & Hl & Hs)]; simpl.
  - by exists EmptyString.
  - destruct (isspace c) eqn:Ec.
    + exists (String c l). split; simpl; [by rewrite Ec |].
      exact (f_equal (String c) Hs).
    + by exists EmptyString.
Qed.

Lemma rstrip_decomp s :
  exists r, all_space r = true /\ s = String.append (rstrip s) r.
Proof.
  induction s as [|c s (r & Hr & Hs)]; simpl.
  - by exists EmptyString.
  - destruct (rstrip s) as [|d t] eqn:E.
    + change (s = r) in Hs. subst r. destruct (isspace c) eqn:Ec.
      * exists (String c s). split; [simpl; by rewrite Ec, Hr | reflexivity].
      * exists s. split; [done | reflexivity].
    + exists r. split; [done|]. exact (f_equal (String c) Hs).
Qed.

(** Stripping removes a run of whitespace at each end and nothing else. *)
Lemma strip_decomp s :
  exists l r, all_space l = true /\ all_space r = true
    /\ s = String.append l (String.append (strip s) r).
Proof.
  destruct (lstrip_decomp s) as (l & Hl & Hs).
  destruct (rstrip_decomp (lstrip s)) as (r & Hr & Ht).
  exists l, r. unfold strip. by rewrite <- Ht.
Qed.

End StripShape.

(** X1: the keys a request can produce are exactly the pairs that
    normalisation leaves unchanged; a table key of any other form could
    never be matched. *)
Theorem rule_key_range (k : string * string) :
  (exists req, rule_key req = k) <-> normalize k.1 = k.1 /\ normalize k.2 = k.2.
Proof.
  split.
  - intros [req <-]. simpl. split; apply normalize_idemp.
  - intros [H1 H2].
    exists {| equipment_type := k.1; symptom := k.2; readings := None |}.
    rewrite rule_key_normalize, H1, H2. by destruct k.
Qed.

Lemma rule_key_range_witness :
  exists req, rule_key req = ("outlet", "no power").
Proof.
  apply (proj2 (rule_key_range ("outlet", "no power"))).
  split; reflexivity.
Defined.

(** X2: every key of the rule table is in normal form, so every rule of the
    table is reached by the request that spells its key as authored. *)
Theorem rules_keys_normalized_reachable
    (e s : string) (rule : RuleEntry) (r : option (gmap string Any)) :
  RULES !! (e, s) = Some rule ->
  normalize e = e /\ normalize s = s
  /\ troubleshoot {| equipment_type := e; symptom := s; readings := r |}
     = rule_response rule.
Proof.
  intros Hrule.
  assert (Hn : normalize e = e /\ normalize s = s).
  { assert (Hk : is_Some (RULES !! (e, s))) by (by rewrite Hrule).
    apply RULES_keys in Hk as [ [= -> ->] | [ [= -> ->] | [= -> ->] ] ];
      by vm_compute. }
  destruct Hn as [He Hs]. repeat split; [done..|].
  unfold troubleshoot. by rewrite rule_key_normalize, He, Hs, Hrule.
Qed.

Lemma rules_keys_normalized_reachable_witness :
  normalize "breaker" = "breaker"
  /\ normalize "trips immediately" = "trips immediately"
  /\ troubleshoot {| equipment_type := "breaker";
                     symptom := "trips immediately"; readings := None |}
     = rule_response
         {| rule_causes := ["Hard short to ground/neutral"; "Faulty breaker"];
            rule_steps := [
              ("Isolate loads", "Disconnect downstream loads and retry; if still trips, inspect homerun");
              ("Megger/continuity", "With power off, test insulation resistance hot-to-neutral and hot-to-ground")];
            rule_next := ["Replace breaker after fault cleared if nuisance persists"] |}.
Proof.
  apply (rules_keys_normalized_reachable "breaker" "trips immediately").
  vm_compute. reflexivity.
Defined.

(** The rule bound to a key of the table, case by case. *)
Lemma RULES_inv (k : string * string) (rule : RuleEntry) :
  RULES !! k = Some rule ->
  RULES !! ("outlet", "no power") = Some rule
  \/ RULES !! ("light", "flickering") = Some rule
  \/ RULES !! ("breaker", "trips immediately") = Some rule.
Proof.
  intros Hrule.
  assert (Hk : is_Some (RULES !! k)) by (by rewrite Hrule).
  apply RULES_keys in Hk as [ -> | [ -> | -> ] ]; auto.
Qed.

(** X3: a response names the single cause "Insufficient data" exactly when
    no rule matched, so a client can tell the generic response from a
    matched rule by its causes. *)
Theorem generic_causes_iff_unmatched (req : TroubleshootRequest) :
  probable_causes (troubleshoot req) = ["Insufficient data"]
  <-> RULES !! rule_key req = None.
Proof.
  unfold troubleshoot.
  destruct (RULES !! rule_key req) as [rule|] eqn:E; [|done].
  split; [|done]. intros Hc. exfalso.
  apply RULES_inv in E as [E | [E | E] ];
    vm_compute in E; injection E as <-; discriminate Hc.
Qed.

Lemma generic_causes_iff_unmatched_witness :
  probable_causes (troubleshoot {| equipment_type := "outlet";
                                   symptom := "no  power"; readings := None |})
  = ["Insufficient data"].
Proof.
  apply (proj2 (generic_causes_iff_unmatched
                  {| equipment_type := "outlet"; symptom := "no  power";
                     readings := None |})).
  vm_compute. reflexivity.
Defined.

(** X4: no response is empty: whatever the request, there is at least one
    probable cause, between two and four steps, each with a title and a
    detail, and at least one next action. *)
Theorem troubleshoot_response_populated (req : TroubleshootRequest) :
  probable_causes (troubleshoot req) <> []
  /\ 2 <= length (steps (troubleshoot req)) <= 4
  /\ Forall (fun st => title st <> "" /\ detail st <> "") (steps (troubleshoot req))
  /\ next_actions (troubleshoot req) <> [].
Proof.
  unfold troubleshoot.
  destruct (RULES !! rule_key req) as [rule|] eqn:E.
  - apply RULES_inv in E as [E | [E | E] ];
      vm_compute in E; injection E as <-;
      (split; [done|]); (split; [simpl; lia|]);
      (split; [|done]); repeat constructor; done.
  - split; [done|]. split; [simpl; lia|].
    split; [|done]. repeat constructor; done.
Qed.

(** X5: two spellings have the same normal form exactly when one is the
    other's stripped text, recased and padded with whitespace; characters
    inside the text, whitespace included, are never dropped. *)
Theorem normalize_eq_iff (s' s : string) :
  normalize s' = normalize s <-> padded_recased s' (PyStr.strip s).
Proof.
  split.
  - intros Heq. destruct (strip_decomp s') as (l & r & Hl & Hr & Hs').
    exists l, (PyStr.strip s'), r.
    split; [exact Hl|]. split; [exact Hr|]. split; [|exact Hs'].
    exact Heq.
  - intros Hp. rewrite (padded_recased_normalize _ _ Hp).
    unfold normalize. by rewrite strip_idemp.
Qed.

Lemma normalize_eq_iff_witness : normalize "  OUTLET " = normalize "Outlet".
Proof.
  apply (proj2 (normalize_eq_iff "  OUTLET " "Outlet")).
  exists "  ", "OUTLET", " ". repeat split; reflexivity.
Defined.

(** ** More on the issue report endpoints *)

Lemma expose_id_other_fields (d : Document) (k : string) :
  k <> "_id" -> k <> "id" -> expose_id d !! k = d !! k.
Proof.
  intros H1 H2. unfold expose_id.
  destruct (d !! "_id") as [v|]; [|done].
  rewrite lookup_insert_ne by done. by rewrite lookup_delete_ne.
Qed.

Lemma Forall2_fmap_diag {A B} (P : A -> B -> Prop) (f : A -> B) (l : list A) :
  (forall x, P x (f x)) -> Forall2 P l (f <$> l).
Proof. intros HP. induction l; simpl; constructor; auto. Qed.

(** X6: the list operation hands back the documents of the store one for
    one and in order, and leaves every field other than "_id" and "id" of
    each as the store returned it. *)
Theorem list_issues_keeps_fields
    (get_documents : string -> Query -> Z -> M (list Document))
    (q : option string) (limit : Z) (w w' : World) (res : IssueList) :
  list_issues get_documents q limit w = (Ok res, w') ->
  exists docs,
    get_documents "issuereport" (issue_filter q) limit w = (Ok docs, w')
    /\ Forall2 (fun d r : Document =>
                  forall k, k <> "_id" -> k <> "id" -> r !! k = d !! k)
               docs (items res).
Proof.
  intros Hrun. apply list_issues_run in Hrun as (docs & Hget & ->).
  exists docs. split; [done|].
  apply Forall2_fmap_diag. intros d k. apply expose_id_other_fields.
Qed.

Lemma list_issues_keeps_fields_witness :
  exists docs,
    (mongo_get_documents sample_unmodelled) "issuereport" (issue_filter None) 50 two_reports_world
    = (Ok docs, two_reports_world)
    /\ Forall2 (fun d r : Document =>
                  forall k, k <> "_id" -> k <> "id" -> r !! k = d !! k)
               docs
               (expose_id <$> (store two_reports_world !!! "issuereport")).
Proof.
  refine (list_issues_keeps_fields (mongo_get_documents sample_unmodelled) None 50
            two_reports_world two_reports_world
            {| items := expose_id <$> (store two_reports_world !!! "issuereport") |} _).
  vm_compute. reflexivity.
Defined.

(** X7: the "id" of a returned record is [str] of the "_id" the store gave
    the document, and it replaces a field "id" the document had of its own;
    a document without "_id" is returned unchanged. *)
Theorem list_issues_id_from_internal
    (get_documents : string -> Query -> Z -> M (list Document))
    (q : option string) (limit : Z) (w w' : World) (res : IssueList) :
  list_issues get_documents q limit w = (Ok res, w') ->
  exists docs,
    get_documents "issuereport" (issue_filter q) limit w = (Ok docs, w')
    /\ Forall2 (fun d r : Document =>
                  (forall v, d !! "_id" = Some v ->
                             r !! "id" = Some (VStr (py_str v)))
                  /\ (d !! "_id" = None -> r = d))
               docs (items res).
Proof.
  intros Hrun. apply list_issues_run in Hrun as (docs & Hget & ->).
  exists docs. split; [done|].
  apply Forall2_fmap_diag. intros d. unfold expose_id. split.
  - intros v ->. apply lookup_insert_eq.
  - by intros ->.
Qed.

Lemma list_issues_id_from_internal_witness :
  exists docs,
    fixed_listing [report_with_own_id] "issuereport" (issue_filter None) 50
      fresh_world = (Ok docs, fresh_world)
    /\ Forall2 (fun d r : Document =>
                  (forall v, d !! "_id" = Some v ->
                             r !! "id" = Some (VStr (py_str v)))
                  /\ (d !! "_id" = None -> r = d))
               docs [expose_id report_with_own_id].
Proof.
  refine (list_issues_id_from_internal (fixed_listing [report_with_own_id])
            None 50 fresh_world fresh_world
            {| items := [expose_id report_with_own_id] |} _).
  vm_compute. reflexivity.
Defined.

(** X8: converting a record twice is converting it once, so a document
    that occurs twice in the list of the store is converted as if once. *)
Theorem expose_id_idempotent (d : Document) :
  expose_id (expose_id d) = expose_id d.
Proof.
  unfold expose_id at 1. by rewrite expose_id_no_internal.
Qed.

(** X9: with the database configured, neither endpoint catches what the
    database helper raises: the exception escapes unchanged and the world is
    as the helper left it; and when [create_document] returns an identifier,
    [create_issue] returns it with the message "Issue report saved". *)
Theorem endpoints_pass_helper_outcome
    (create_document : string -> Document -> M string)
    (get_documents : string -> Query -> Z -> M (list Document))
    (issue : Document) (q : option string) (limit : Z) (w : World) (h : string) :
  db w = Some h ->
  (forall e w1, create_document "issuereport" issue w = (Raise e, w1) ->
                create_issue create_document issue w = (Raise e, w1))
  /\ (forall i w1, create_document "issuereport" issue w = (Ok i, w1) ->
                   create_issue create_document issue w
                   = (Ok {| created_id := i;
                            created_message := "Issue report saved" |}, w1))
  /\ (forall e w1,
        get_documents "issuereport" (issue_filter q) limit w = (Raise e, w1) ->
        list_issues get_documents q limit w = (Raise e, w1)).
Proof.
  intros Hdb.
  unfold create_issue, list_issues, mbind, M_bind, require_db.
  rewrite Hdb. repeat split; intros ? ? ->; done.
Qed.

Lemma endpoints_pass_helper_outcome_witness :
  create_issue (failing_helper (StoreError "write refused")) kitchen_report
    fresh_world
  = (Raise (StoreError "write refused"), fresh_world).
Proof.
  apply (endpoints_pass_helper_outcome
           (failing_helper (StoreError "write refused"))
           (mongo_get_documents sample_unmodelled) kitchen_report None 50 fresh_world "appdb").
  - reflexivity.
  - reflexivity.
Defined.

(** ** The diagnostic endpoint *)

Lemma str_prefix_code_points (n : nat) (s : string) :
  code_points (str_prefix n s) <= n.
Proof.
  revert n. induction s as [|c s IH]; intros n; simpl; [lia|].
  destruct (is_continuation c) eqn:Ec; simpl.
  - rewrite Ec. apply IH.
  - destruct n as [|k]; simpl; [lia|]. rewrite Ec. specialize (IH k). lia.
Qed.

Lemma str_prefix_is_prefix (n : nat) (s : string) :
  exists rest, s = String.append (str_prefix n s) rest.
Proof.
  revert n. induction s as [|c s IH]; intros n; simpl.
  - by exists EmptyString.
  - destruct (is_continuation c).
    + destruct (IH n) as [rest Hrest]. exists rest.
      exact (f_equal (String c) Hrest).
    + destruct n as [|k]; [by exists (String c s)|].
      destruct (IH k) as [rest Hrest]. exists rest.
      exact (f_equal (String c) Hrest).
Qed.

Lemma str_prefix_short (n : nat) (s : string) :
  code_points s <= n -> str_prefix n s = s.
Proof.
  revert n. induction s as [|c s IH]; intros n; simpl; [done|].
  destruct (is_continuation c).
  - intros Hn. by rewrite IH.
  - destruct n as [|k]; [lia|]. intros Hn. rewrite IH; [done | lia].
Qed.

(** The runs of [test_database], path by path. *)
Lemma test_database_eq
    (environ : gmap string string) (list_collection_names : M (list string))
    (exn_str : Exn -> Result string) (w : World) :
  test_database environ list_collection_names exn_str w
  = match db w with
    | None =>
        (Ok (set_database "⚠️  Available but not initialized" initial_response), w)
    | Some _ =>
        match list_collection_names w with
        | (Ok names, w1) =>
            (Ok (set_collections (take 10 names) (configured_response environ)), w1)
        | (Raise e, w1) =>
            if is_exception e then
              match exn_str e with
              | Ok text =>
                  (Ok (set_database
                         (String.append "⚠️  Connected but Error: " (str_prefix 50 text))
                         (configured_response environ)), w1)
              | Raise e2 =>
                  if is_exception e2 then
                    match exn_str e2 with
                    | Ok text2 =>
                        (Ok (set_database
                               (String.append "❌ Error: " (str_prefix 50 text2))
                               (configured_response environ)), w1)
                    | Raise e3 => (Raise e3, w1)
                    end
                  else (Raise e2, w1)
              end
            else (Raise e, w1)
        end
    end.
Proof.
  unfold test_database, test_database_body, try_except, mbind, R_bind,
    read_db, assign, call, eval, getenv. simpl.
  destruct (db w); simpl; [|done].
  destruct (list_collection_names w) as [ [names|e] w1]; simpl; [done|].
  destruct (is_exception e) eqn:He; simpl; rewrite ?He; simpl; [|done].
  destruct (exn_str e) as [text|e2]; simpl; [done|].
  destruct (is_exception e2) eqn:He2; simpl; rewrite ?He2; simpl; [|done].
  by destruct (exn_str e2) as [text2|e3].
Qed.

Section DiagnosticsFacts.

Variable environ : gmap string string.
Variable list_collection_names : M (list string).
Variable exn_str : Exn -> Result string.

Local Abbreviation run := (test_database environ list_collection_names exn_str).

Local Ltac run_cases H :=
  rewrite test_database_eq in H;
  repeat case_match; simplify_eq; simpl in *.

(** X10: the diagnostic endpoint absorbs the errors of the listing.  A
    response it returns always reports the backend as running; what it lets
    escape is never an [Exception] of the driver: it is either outside
    [Exception] (the handlers are [except Exception]) or was raised by [str]
    on an exception.  So when the listing raises only [Exception]s and [str]
    prints every exception, a response is returned. *)
Theorem test_database_absorbs_errors (w : World) :
  (forall r w', run w = (Ok r, w') -> backend r = "✅ Running")
  /\ (forall x w', run w = (Raise x, w') ->
        is_exception x = false \/ exists e, exn_str e = Raise x)
  /\ ((forall e w1, list_collection_names w = (Raise e, w1) ->
         is_exception e = true /\ exists text, exn_str e = Ok text) ->
      exists r w', run w = (Ok r, w')).
Proof.
  split; [|split].
  - intros r w' Hrun. by run_cases Hrun.
  - intros x w' Hrun. run_cases Hrun; eauto.
  - intros Hlist. rewrite test_database_eq.
    destruct (db w); [|by eauto].
    destruct (list_collection_names w) as [ [names|e] w1]; [by eauto|].
    destruct (Hlist e w1 eq_refl) as [-> [text ->] ]. by eauto.
Qed.

(** X11: with the database handle absent the driver is not called and the
    environment is not consulted: the world is unchanged and the response is
    the fixed "not initialized" one, with no connection, no URL or name
    status and no collections. *)
Theorem test_database_unconfigured (w : World) :
  db w = None ->
  run w
  = (Ok {| backend := "✅ Running";
           database := "⚠️  Available but not initialized";
           database_url := None;
           database_name := None;
           connection_status := "Not Connected";
           collections := [] |}, w).
Proof.
  intros Hdb. rewrite test_database_eq. by rewrite Hdb.
Qed.

(** X12: at most ten collection names are reported: the first ten the
    driver listed, or none when the handle is absent or the listing raised. *)
Theorem test_database_collections_capped (w w' : World) (r : TestResponse) :
  run w = (Ok r, w') ->
  length (collections r) <= 10
  /\ (collections r = []
      \/ exists names, list_collection_names w = (Ok names, w')
                       /\ collections r = take 10 names).
Proof.
  intros Hrun. run_cases Hrun; try (split; [lia | by left]).
  split; [rewrite length_take; lia | right; by eauto].
Qed.

(** X13: the response never carries the value of DATABASE_URL: its
    [database_url] is absent or one of the two fixed texts, and it reads
    "Set" exactly when the handle is present and the variable is set to a
    non-empty string. *)
Theorem test_database_url_not_disclosed (w w' : World) (r : TestResponse) :
  run w = (Ok r, w') ->
  (database_url r = None \/ database_url r = Some "✅ Set"
   \/ database_url r = Some "❌ Not Set")
  /\ (database_url r = Some "✅ Set"
      <-> is_Some (db w) /\ truthy (environ !! "DATABASE_URL") = true).
Proof.
  intros Hrun.
  rewrite test_database_eq in Hrun.
  destruct (db w) as [h|].
  - assert (Hurl : database_url r
                   = Some (if truthy (environ !! "DATABASE_URL")
                           then "✅ Set" else "❌ Not Set")).
    { destruct (list_collection_names w) as [ [names|e] w1]; [by simplify_eq|].
      destruct (is_exception e); [|done].
      destruct (exn_str e) as [text|e2]; [by simplify_eq|].
      destruct (is_exception e2); [|done].
      destruct (exn_str e2); by simplify_eq. }
    rewrite Hurl. destruct (truthy (environ !! "DATABASE_URL")).
    + split; [auto|]. split; [by eauto | done].
    + split; [auto|]. split; [discriminate | by intros [_ ?] ].
  - simplify_eq. simpl. split; [auto|].
    split; [discriminate | by intros [ [? ?] _] ].
Qed.

(** X14: the [database] text of a returned response is one of four:
    connected and working; available but not initialized; the "Connected
    but Error" prefix with the first fifty characters of the listing's
    error; or, when [str] raised on that error, the "Error" prefix of the
    outer handler with the first fifty characters of what [str] raised.
    The initial "Not Available" text is always overwritten. *)
Theorem test_database_status_texts (w w' : World) (r : TestResponse) :
  run w = (Ok r, w') ->
  (database r = "✅ Connected & Working"
   \/ database r = "⚠️  Available but not initialized"
   \/ (exists e text,
         list_collection_names w = (Raise e, w') /\ exn_str e = Ok text
         /\ database r = String.append "⚠️  Connected but Error: " (str_prefix 50 text))
   \/ (exists e e2 text,
         list_collection_names w = (Raise e, w') /\ exn_str e = Raise e2
         /\ exn_str e2 = Ok text
         /\ database r = String.append "❌ Error: " (str_prefix 50 text)))
  /\ database r <> "❌ Not Available".
Proof.
  intros Hrun. run_cases Hrun.
  - split; [auto | done].
  - split; [|discriminate]. right; right; left. by eauto.
  - split; [|discriminate]. right; right; right. by eauto 10.
  - split; [auto | done].
Qed.

(** X15: when the listing raises an [Exception] that [str] prints, the
    response still says "Connected" and reports the URL and name status; its
    [database] text is the fixed prefix followed by the first fifty
    characters of the printed error, or all of it when shorter, and no
    collection is listed. *)
Theorem test_database_listing_error
    (w w1 : World) (h : string) (e : Exn) (text : string) :
  db w = Some h ->
  list_collection_names w = (Raise e, w1) ->
  is_exception e = true ->
  exn_str e = Ok text ->
  run w
  = (Ok {| backend := "✅ Running";
           database := String.append "⚠️  Connected but Error: " (str_prefix 50 text);
           database_url := Some (if truthy (environ !! "DATABASE_URL")
                                 then "✅ Set" else "❌ Not Set");
           database_name := Some (py_or (environ !! "DATABASE_NAME") "❌ Not Set");
           connection_status := "Connected";
           collections := [] |}, w1)
  /\ code_points (str_prefix 50 text) <= 50
  /\ (exists rest, text = String.append (str_prefix 50 text) rest)
  /\ (code_points text <= 50 -> str_prefix 50 text = text).
Proof.
  intros Hdb Hlist He Hstr.
  rewrite test_database_eq, Hdb, Hlist, He, Hstr.
  split; [done|].
  split; [apply str_prefix_code_points|].
  split; [apply str_prefix_is_prefix | apply str_prefix_short].
Qed.

(** X16: when [str] itself raises an [Exception] on the listing's error,
    the outer handler takes over: the response keeps "Connected" and the URL
    and name status assigned before, and its [database] text is the "Error"
    prefix followed by the first fifty characters of what [str] raised. *)
Theorem test_database_outer_handler
    (w w1 : World) (h : string) (e e2 : Exn) (text : string) :
  db w = Some h ->
  list_collection_names w = (Raise e, w1) ->
  is_exception e = true ->
  exn_str e = Raise e2 ->
  is_exception e2 = true ->
  exn_str e2 = Ok text ->
  run w
  = (Ok {| backend := "✅ Running";
           database := String.append "❌ Error: " (str_prefix 50 text);
           database_url := Some (if truthy (environ !! "DATABASE_URL")
                                 then "✅ Set" else "❌ Not Set");
           database_name := Some (py_or (environ !! "DATABASE_NAME") "❌ Not Set");
           connection_status := "Connected";
           collections := [] |}, w1).
Proof.
  intros Hdb Hlist He Hstr He2 Hstr2.
  by rewrite test_database_eq, Hdb, Hlist, He, Hstr, He2, Hstr2.
Qed.

End DiagnosticsFacts.

Lemma test_database_absorbs_errors_witness :
  (exists r w', test_database sample_environ listing_fails sample_exn_str
                  fresh_world = (Ok r, w'))
  /\ test_database sample_environ listing_interrupted sample_exn_str fresh_world
     = (Raise (NonException "KeyboardInterrupt"), fresh_world).
Proof.
  split; [|reflexivity].
  apply (test_database_absorbs_errors sample_environ listing_fails
           sample_exn_str fresh_world).
  intros e w1 [= <- <-]. split; [reflexivity | by eexists].
Defined.

Lemma test_database_unconfigured_witness :
  test_database sample_environ listing_twelve sample_exn_str unconfigured_world
  = (Ok {| backend := "✅ Running";
           database := "⚠️  Available but not initialized";
           database_url := None;
           database_name := None;
           connection_status := "Not Connected";
           collections := [] |}, unconfigured_world).
Proof.
  apply (test_database_unconfigured sample_environ listing_twelve sample_exn_str
           unconfigured_world).
  reflexivity.
Defined.

Lemma test_database_collections_capped_witness :
  exists r,
    test_database sample_environ listing_twelve sample_exn_str fresh_world
    = (Ok r, fresh_world)
    /\ length (collections r) = 10
    /\ length (collections r) <= 10.
Proof.
  eexists. split; [vm_compute; reflexivity|]. split; [reflexivity|].
  refine (proj1 (test_database_collections_capped sample_environ listing_twelve
                   sample_exn_str fresh_world fresh_world _ _)).
  vm_compute. reflexivity.
Defined.

Lemma test_database_url_not_disclosed_witness :
  exists r,
    test_database sample_environ listing_twelve sample_exn_str fresh_world
    = (Ok r, fresh_world)
    /\ (database_url r = None \/ database_url r = Some "✅ Set"
        \/ database_url r = Some "❌ Not Set").
Proof.
  eexists. split; [vm_compute; reflexivity|].
  refine (proj1 (test_database_url_not_disclosed sample_environ listing_twelve
                   sample_exn_str fresh_world fresh_world _ _)).
  vm_compute. reflexivity.
Defined.

Lemma test_database_status_texts_witness :
  exists r,
    test_database sample_environ listing_fails failing_exn_str fresh_world
    = (Ok r, fresh_world)
    /\ database r = "❌ Error: cannot print"
    /\ database r <> "❌ Not Available".
Proof.
  eexists. split; [vm_compute; reflexivity|]. split; [reflexivity|].
  refine (proj2 (test_database_status_texts sample_environ listing_fails
                   failing_exn_str fresh_world fresh_world _ _)).
  vm_compute. reflexivity.
Defined.

Lemma test_database_listing_error_witness :
  test_database sample_environ (raise (StoreError long_error)) sample_exn_str
    fresh_world
  = (Ok {| backend := "✅ Running";
           database :=
             "⚠️  Connected but Error: café 0123456789 0123456789 0123456789 0123456789 0";
           database_url := Some "✅ Set";
           database_name := Some "appdb";
           connection_status := "Connected";
           collections := [] |}, fresh_world)
  /\ code_points long_error = 64
  /\ String.length long_error = 65.
Proof.
  split; [|split; reflexivity].
  refine (proj1 (test_database_listing_error sample_environ
                   (raise (StoreError long_error)) sample_exn_str
                   fresh_world fresh_world "appdb" (StoreError long_error)
                   long_error _ _ _ _));
    reflexivity.
Defined.

Lemma test_database_outer_handler_witness :
  test_database sample_environ listing_fails failing_exn_str fresh_world
  = (Ok {| backend := "✅ Running";
           database := "❌ Error: cannot print";
           database_url := Some "✅ Set";
           database_name := Some "appdb";
           connection_status := "Connected";
           collections := [] |}, fresh_world).
Proof.
  refine (test_database_outer_handler sample_environ listing_fails
            failing_exn_str fresh_world fresh_world "appdb"
            (StoreError "connection refused") (StoreError "cannot print")
            "cannot print" _ _ _ _ _ _);
    reflexivity.
Defined.
